(** * Vendor management system: purchase-order handlers and vendor metrics

    A shallow embedding of [vendors/models.py] and [vendors/views.py].

    - The three Django models are records; a table with a primary key is a
      finite map from the key to its row, the table of historical records
      (automatic key, only ever appended to) is a list in insertion order.
    - A view is a function from the database to the database and an outcome:
      the [JsonResponse] it returns, or the exception it lets escape.
    - A model instance held by a view ([po], [vendor]) is a record value that
      the view threads through the metric functions, which return the mutated
      instance together with the database, as [vendor.save()] writes every
      column of the instance back.
    - [FloatField] values are exact rationals ([Q]): the claims are about which
      rows enter an aggregate, not about binary rounding.
    - A [DateTimeField] is a count of microseconds; [datetime.now()] is an
      argument of the view that calls it.
    - A request body is the dictionary that [json.loads] returns, restricted
      to the keys the view reads, each present key holding a value of the type
      of its column; the values of these types that the table of purchase
      orders still refuses (a null [items], a [quantity] outside the range of
      the database integer) make [save()] and [create()] raise, as modelled
      by [PurchaseOrder_rejected].
    - [api_view] and the authentication classes answer a request with a method
      outside the view's list or without a valid token before the view runs;
      the request types hold the requests that reach the view. *)

From Stdlib Require Import ZArith QArith String List.
From stdpp Require Import gmap strings list fin_maps.

Local Open Scope string_scope.
Local Open Scope list_scope.

(** ** Values *)

Definition datetime := Z.
Bind Scope Z_scope with datetime.

(** [(a - b).total_seconds()] for two datetimes. *)
Definition total_seconds (a b : datetime) : Q := ((a - b) # 1000000)%Q.

(** The payload of a [JSONField]; it is stored and returned, never inspected. *)
#[local] Unset Elimination Schemes.
Inductive json :=
| JNull
| JBool (b : bool)
| JNum (q : Q)
| JStr (s : string)
| JList (l : list json)
| JDict (l : list (string * json)).
#[local] Set Elimination Schemes.

(** ** models.py *)

Module Vendor.
Record t := mk {
  vendor_code : string;
  name : string;
  contact_details : string;
  address : string;
  on_time_delivery_rate : Q;
  quality_rating_avg : Q;
  average_response_time : Q;
  fulfillment_rate : Q
}.

Definition set_quality_rating_avg (x : Q) (v : t) : t :=
  mk (vendor_code v) (name v) (contact_details v) (address v)
     (on_time_delivery_rate v) x (average_response_time v) (fulfillment_rate v).

Definition set_average_response_time (x : Q) (v : t) : t :=
  mk (vendor_code v) (name v) (contact_details v) (address v)
     (on_time_delivery_rate v) (quality_rating_avg v) x (fulfillment_rate v).

Definition set_fulfillment_rate (x : Q) (v : t) : t :=
  mk (vendor_code v) (name v) (contact_details v) (address v)
     (on_time_delivery_rate v) (quality_rating_avg v) (average_response_time v) x.
End Vendor.

Module PurchaseOrder.
Record t := mk {
  po_number : string;
  vendor : string;                       (* the foreign key, [vendor_id] *)
  order_date : datetime;
  delivery_date : datetime;
  items : json;
  quantity : Z;
  status : string;
  quality_rating : option Q;
  issue_date : datetime;
  acknowledgement_date : option datetime
}.

Definition set_acknowledgement_date (d : option datetime) (po : t) : t :=
  mk (po_number po) (vendor po) (order_date po) (delivery_date po) (items po)
     (quantity po) (status po) (quality_rating po) (issue_date po) d.
End PurchaseOrder.

Module HistoricalPerformance.
Record t := mk {
  vendor : string;
  date : datetime;
  on_time_delivery_rate : Q;
  quality_rating_avg : Q;
  average_response_time : Q;
  fulfillment_rate : Q
}.
End HistoricalPerformance.

(** ** The database *)

Record DB := mkDB {
  Vendor_objects : gmap string Vendor.t;
  PurchaseOrder_objects : gmap string PurchaseOrder.t;
  HistoricalPerformance_objects : list HistoricalPerformance.t
}.

Definition set_Vendor_objects (m : gmap string Vendor.t) (db : DB) : DB :=
  mkDB m (PurchaseOrder_objects db) (HistoricalPerformance_objects db).

Definition set_PurchaseOrder_objects (m : gmap string PurchaseOrder.t) (db : DB) : DB :=
  mkDB (Vendor_objects db) m (HistoricalPerformance_objects db).

Definition set_HistoricalPerformance_objects (l : list HistoricalPerformance.t) (db : DB) : DB :=
  mkDB (Vendor_objects db) (PurchaseOrder_objects db) l.

(** [instance.save()] of an instance loaded from the database: an UPDATE of
    the row whose key is the instance's current key, an INSERT when there is
    no such row. *)
Definition Vendor_save (v : Vendor.t) (db : DB) : DB :=
  set_Vendor_objects (<[Vendor.vendor_code v := v]> (Vendor_objects db)) db.

Definition PurchaseOrder_save (po : PurchaseOrder.t) (db : DB) : DB :=
  set_PurchaseOrder_objects (<[PurchaseOrder.po_number po := po]> (PurchaseOrder_objects db)) db.

(** [po.delete()]. *)
Definition PurchaseOrder_delete (po : PurchaseOrder.t) (db : DB) : DB :=
  set_PurchaseOrder_objects (delete (PurchaseOrder.po_number po) (PurchaseOrder_objects db)) db.

(** [vendor.delete()]: both foreign keys are [on_delete=CASCADE]. *)
Definition Vendor_delete (v : Vendor.t) (db : DB) : DB :=
  mkDB (delete (Vendor.vendor_code v) (Vendor_objects db))
       (filter (λ kp, PurchaseOrder.vendor kp.2 ≠ Vendor.vendor_code v) (PurchaseOrder_objects db))
       (filter (λ h, HistoricalPerformance.vendor h ≠ Vendor.vendor_code v)
               (HistoricalPerformance_objects db)).

(** ** Query sets over the purchase orders *)

(** [PurchaseOrder.objects.filter(vendor=vendor)] *)
Definition filter_vendor (code : string) (db : DB) : gmap string PurchaseOrder.t :=
  filter (λ kp, PurchaseOrder.vendor kp.2 = code) (PurchaseOrder_objects db).

(** [PurchaseOrder.objects.filter(vendor=vendor, acknowledgement_date__isnull=False)] *)
Definition filter_vendor_acknowledged (code : string) (db : DB) : gmap string PurchaseOrder.t :=
  filter (λ kp, PurchaseOrder.vendor kp.2 = code
                ∧ PurchaseOrder.acknowledgement_date kp.2 ≠ None)
         (PurchaseOrder_objects db).

(** [PurchaseOrder.objects.filter(vendor=vendor, status='completed')] *)
Definition filter_vendor_completed (code : string) (db : DB) : gmap string PurchaseOrder.t :=
  filter (λ kp, PurchaseOrder.vendor kp.2 = code ∧ PurchaseOrder.status kp.2 = "completed")
         (PurchaseOrder_objects db).

(** Iterating a query set yields its rows; [len] and [count()] give their number. *)
Definition rows (qs : gmap string PurchaseOrder.t) : list PurchaseOrder.t :=
  (map_to_list qs).*2.

Definition Qsum (l : list Q) : Q := foldr Qplus 0%Q l.

Definition Qnat (n : nat) : Q := inject_Z (Z.of_nat n).

(** [aggregate(Avg(column))]: the SQL average skips NULL and is NULL when no
    row has a value. *)
Definition Avg (column : list (option Q)) : option Q :=
  match omap id column with
  | [] => None
  | x :: xs => Some (Qsum (x :: xs) / Qnat (length (x :: xs)))%Q
  end.

(** ** The metric functions of views.py *)

(** The response time of one acknowledged order, in seconds; the query set
    only holds rows with a date, the other branch is never taken. *)
Definition response_seconds (po : PurchaseOrder.t) : Q :=
  match PurchaseOrder.acknowledgement_date po with
  | Some ack => total_seconds ack (PurchaseOrder.issue_date po)
  | None => 0%Q
  end.

Definition calculate_average_response_time (vendor : Vendor.t) (db : DB) : Vendor.t * DB :=
  let purchase_orders := rows (filter_vendor_acknowledged (Vendor.vendor_code vendor) db) in
  let total_response_time := Qsum (response_seconds <$> purchase_orders) in
  let average_response_time :=
    if decide (0 < length purchase_orders)%nat
    then (total_response_time / Qnat (length purchase_orders))%Q
    else 0%Q in
  let vendor := Vendor.set_average_response_time average_response_time vendor in
  (vendor, Vendor_save vendor db).

Definition quality_rating_calculation (vendor : Vendor.t) (db : DB) : Vendor.t * DB :=
  let completed_purchase_orders := filter_vendor_completed (Vendor.vendor_code vendor) db in
  let average_quality_rating :=
    Avg (PurchaseOrder.quality_rating <$> rows completed_purchase_orders) in
  let vendor :=
    Vendor.set_quality_rating_avg
      (match average_quality_rating with Some a => a | None => 0%Q end) vendor in
  (vendor, Vendor_save vendor db).

Definition fulfillment_rate_calculation (vendor : Vendor.t) (db : DB) : Vendor.t * DB :=
  let completed_po_count := size (filter_vendor_completed (Vendor.vendor_code vendor) db) in
  let total_po_count := size (filter_vendor (Vendor.vendor_code vendor) db) in
  let fulfillment_rate :=
    if decide (total_po_count ≠ 0%nat)
    then (Qnat completed_po_count / Qnat total_po_count)%Q
    else 0%Q in
  let vendor := Vendor.set_fulfillment_rate fulfillment_rate vendor in
  (vendor, Vendor_save vendor db).

(** The instance [HistoricalPerformance.objects.create] builds for a vendor;
    [now] is what [datetime.now()] returns. *)
Definition snapshot (now : datetime) (vendor : Vendor.t) : HistoricalPerformance.t :=
  HistoricalPerformance.mk (Vendor.vendor_code vendor) now
    (Vendor.on_time_delivery_rate vendor) (Vendor.quality_rating_avg vendor)
    (Vendor.average_response_time vendor) (Vendor.fulfillment_rate vendor).

Definition create_historical_record (now : datetime) (vendor : Vendor.t) (db : DB) : DB :=
  let new_record := snapshot now vendor in
  set_HistoricalPerformance_objects (HistoricalPerformance_objects db ++ [new_record]) db.

(** ** Requests and responses *)

(** The exceptions of the ORM that the views meet. *)
Inductive exception :=
| DoesNotExist
| IntegrityError
| OverflowError.

#[global] Instance exception_eq_dec : EqDecision exception.
Proof. solve_decision. Defined.

(** [strftime('%Y-%m-%d %H:%M:%S')]: the text gives the date to the second and
    drops the microseconds; it is modelled by the whole second it denotes. *)
Definition strftime (d : datetime) : Z := (d `div` 1000000)%Z.

(** The dictionary [po_json] that the view of one purchase order returns. *)
Module po_json_dict.
Record t := mk {
  po_number : string;
  vendor : string;
  order_date : Z;
  delivery_date : Z;
  items : json;
  quantity : Z;
  status : string;
  quality_rating : option Q;
  issue_date : Z;
  acknowledgement_date : option Z
}.
End po_json_dict.

(** The dictionary (or list) handed to [JsonResponse]. The list of purchase
    orders is given by the rows it renders, one dictionary per row, in the
    order of the query set. *)
Inductive content :=
| message (s : string)
| error (s : string)
| error_str (e : exception)
| vendor_json (v : Vendor.t)
| vendor_list (l : list Vendor.t)
| performance_json (vendor_code : string)
    (on_time_delivery_rate quality_rating_avg average_response_time fulfillment_rate : Q)
| po_json (d : po_json_dict.t)
| purchase_orders_data (l : list PurchaseOrder.t).

Inductive outcome :=
| JsonResponse (c : content) (status : Z)
| Raise (e : exception).

(** The key [k] of a dictionary, listed when it is present; [k in d] is
    membership in the list of the keys of [d]. *)
Definition key {A} (k : string) (o : option A) : list string :=
  match o with Some _ => [k] | None => [] end.

(** The body of a request about a vendor; [None] is an absent key. *)
Module vendor_details.
Record t := mk {
  name : option string;
  contact_details : option string;
  address : option string;
  vendor_code : option string;
  on_time_delivery_rate : option Q;
  quality_rating_avg : option Q;
  average_response_time : option Q;
  fulfillment_rate : option Q
}.

Definition keys (d : t) : list string :=
  key "name" (name d) ++ key "contact_details" (contact_details d)
  ++ key "address" (address d) ++ key "vendor_code" (vendor_code d)
  ++ key "on_time_delivery_rate" (on_time_delivery_rate d)
  ++ key "quality_rating_avg" (quality_rating_avg d)
  ++ key "average_response_time" (average_response_time d)
  ++ key "fulfillment_rate" (fulfillment_rate d).
End vendor_details.

(** The body of a request about a purchase order; [None] is an absent key,
    and the two nullable columns may be present with the value [null]. *)
Module po_details.
Record t := mk {
  po_number : option string;
  vendor : option string;
  order_date : option datetime;
  delivery_date : option datetime;
  items : option json;
  quantity : option Z;
  status : option string;
  quality_rating : option (option Q);
  issue_date : option datetime;
  acknowledgement_date : option (option datetime)
}.

Definition keys (d : t) : list string :=
  key "po_number" (po_number d) ++ key "vendor" (vendor d)
  ++ key "order_date" (order_date d) ++ key "delivery_date" (delivery_date d)
  ++ key "items" (items d) ++ key "quantity" (quantity d)
  ++ key "status" (status d) ++ key "quality_rating" (quality_rating d)
  ++ key "issue_date" (issue_date d)
  ++ key "acknowledgement_date" (acknowledgement_date d).
End po_details.

(** The requests a view receives: [api_view] lets through the methods of its
    list only, and the authentication classes the requests that carry a valid
    token; a view with the single method GET takes no request argument. *)
Inductive vendors_request :=
| vendors_GET
| vendors_POST (body : vendor_details.t).

Inductive vendor_data_request :=
| vendor_data_GET
| vendor_data_PUT (body : vendor_details.t)
| vendor_data_DELETE.

(** The query string of the list view is the optional [vendor_id]. *)
Inductive purchase_orders_request :=
| purchase_orders_GET (vendor_id : option string)
| purchase_orders_POST (body : po_details.t).

Inductive purchase_order_data_request :=
| purchase_order_data_GET
| purchase_order_data_PUT (body : po_details.t)
| purchase_order_data_DELETE.

(** [", ".join(l)] *)
Definition join (sep : string) (l : list string) : string := String.concat sep l.

(** [[field for field in required_fields if field not in d]] *)
Definition missing_from (keys required_fields : list string) : list string :=
  filter (λ field, field ∉ keys) required_fields.

(** ** The views *)

Definition vendors_required_fields : list string :=
  ["name"; "contact_details"; "address"; "vendor_code"; "on_time_delivery_rate";
   "quality_rating_avg"; "average_response_time"; "fulfillment_rate"].

(** [Vendor.objects.create(...)] from a body; the columns are all NOT NULL
    and the insert fails on a key that is taken. *)
Definition Vendor_create (d : vendor_details.t) (db : DB) : option Vendor.t :=
  name ← vendor_details.name d;
  contact_details ← vendor_details.contact_details d;
  address ← vendor_details.address d;
  vendor_code ← vendor_details.vendor_code d;
  on_time_delivery_rate ← vendor_details.on_time_delivery_rate d;
  quality_rating_avg ← vendor_details.quality_rating_avg d;
  average_response_time ← vendor_details.average_response_time d;
  fulfillment_rate ← vendor_details.fulfillment_rate d;
  match Vendor_objects db !! vendor_code with
  | Some _ => None
  | None => Some (Vendor.mk vendor_code name contact_details address on_time_delivery_rate
                            quality_rating_avg average_response_time fulfillment_rate)
  end.

Definition vendors (req : vendors_request) (db : DB) : DB * outcome :=
  match req with
  | vendors_POST vendor_details =>
      let missing_fields :=
        missing_from (vendor_details.keys vendor_details) vendors_required_fields in
      if decide (missing_fields ≠ []) then
        (db, JsonResponse (error ("missing fields: " +:+ join ", " missing_fields)) 400)
      else
        match Vendor_create vendor_details db with
        | Some vendor => (Vendor_save vendor db, JsonResponse (message "vendor created") 201)
        | None => (db, JsonResponse (error_str IntegrityError) 400)
        end
  | vendors_GET => (db, JsonResponse (vendor_list (map_to_list (Vendor_objects db)).*2) 200)
  end.

Definition vendor_data (req : vendor_data_request) (vendor_id : string) (db : DB)
  : DB * outcome :=
  match Vendor_objects db !! vendor_id with
  | None => (db, JsonResponse (error "invalid vendor id") 404)
  | Some vendor =>
      match req with
      | vendor_data_GET => (db, JsonResponse (vendor_json vendor) 200)
      | vendor_data_PUT vendor_details =>
          let vendor :=
            Vendor.mk
              (default (Vendor.vendor_code vendor) (vendor_details.vendor_code vendor_details))
              (default (Vendor.name vendor) (vendor_details.name vendor_details))
              (default (Vendor.contact_details vendor)
                       (vendor_details.contact_details vendor_details))
              (default (Vendor.address vendor) (vendor_details.address vendor_details))
              (default (Vendor.on_time_delivery_rate vendor)
                       (vendor_details.on_time_delivery_rate vendor_details))
              (default (Vendor.quality_rating_avg vendor)
                       (vendor_details.quality_rating_avg vendor_details))
              (default (Vendor.average_response_time vendor)
                       (vendor_details.average_response_time vendor_details))
              (default (Vendor.fulfillment_rate vendor)
                       (vendor_details.fulfillment_rate vendor_details)) in
          (Vendor_save vendor db, JsonResponse (message "vendor updated") 200)
      | vendor_data_DELETE =>
          (Vendor_delete vendor db, JsonResponse (message "vendor deleted") 204)
      end
  end.

Definition vendor_performance (vendor_id : string) (db : DB) : DB * outcome :=
  match Vendor_objects db !! vendor_id with
  | None => (db, JsonResponse (error "invalid vendor id") 404)
  | Some vendor =>
      (db, JsonResponse
             (performance_json (Vendor.vendor_code vendor)
                (Vendor.on_time_delivery_rate vendor) (Vendor.quality_rating_avg vendor)
                (Vendor.average_response_time vendor) (Vendor.fulfillment_rate vendor))
             200)
  end.

Definition purchase_orders_required_fields : list string :=
  ["po_number"; "vendor"; "order_date"; "delivery_date"; "items"; "quantity"; "status";
   "issue_date"].

(** The range of the database integer that holds [quantity] (SQLite's 64-bit
    INTEGER, the backend of a default Django project). *)
Definition integer_min : Z := -9223372036854775808.
Definition integer_max : Z := 9223372036854775807.

(** What the database answers to the INSERT or UPDATE of a purchase-order
    row: a [quantity] outside the integer range cannot be bound to the
    statement ([OverflowError]), and a null [items] violates the NOT NULL
    constraint of the column ([IntegrityError]); [None] when the row is
    accepted. *)
Definition PurchaseOrder_rejected (po : PurchaseOrder.t) : option exception :=
  if decide (integer_min ≤ PurchaseOrder.quantity po ≤ integer_max)%Z then
    match PurchaseOrder.items po with
    | JNull => Some IntegrityError
    | _ => None
    end
  else Some OverflowError.
Arguments PurchaseOrder_rejected : simpl never.

(** [PurchaseOrder.objects.create(...)] from a body, with the exception it
    raises when the vendor is unknown, the row is refused or the number is
    taken. *)
Definition PurchaseOrder_create (d : po_details.t) (db : DB) : exception + PurchaseOrder.t :=
  match po_details.po_number d, po_details.vendor d, po_details.order_date d,
        po_details.delivery_date d, po_details.items d, po_details.quantity d,
        po_details.status d, po_details.issue_date d with
  | Some po_number, Some vendor, Some order_date, Some delivery_date, Some items,
    Some quantity, Some status, Some issue_date =>
      match Vendor_objects db !! vendor with
      | None => inl DoesNotExist
      | Some _ =>
          let po :=
            PurchaseOrder.mk po_number vendor order_date delivery_date items quantity
              status (mjoin (po_details.quality_rating d)) issue_date
              (mjoin (po_details.acknowledgement_date d)) in
          match PurchaseOrder_rejected po with
          | Some e => inl e
          | None =>
              match PurchaseOrder_objects db !! po_number with
              | Some _ => inl IntegrityError
              | None => inr po
              end
          end
      end
  | _, _, _, _, _, _, _, _ => inl IntegrityError
  end.

Definition purchase_orders (req : purchase_orders_request) (db : DB) : DB * outcome :=
  match req with
  | purchase_orders_GET vendor_id =>
      match vendor_id with
      | Some (String c s) =>
          match Vendor_objects db !! String c s with
          | None => (db, Raise DoesNotExist)
          | Some vendor =>
              (db, JsonResponse
                     (purchase_orders_data (rows (filter_vendor (Vendor.vendor_code vendor) db)))
                     200)
          end
      | _ => (db, JsonResponse (purchase_orders_data (rows (PurchaseOrder_objects db))) 200)
      end
  | purchase_orders_POST po_details =>
      let missing_fields :=
        missing_from (po_details.keys po_details) purchase_orders_required_fields in
      if decide (missing_fields ≠ []) then
        (db, JsonResponse (error ("Missing fields: " +:+ join ", " missing_fields)) 400)
      else
        match PurchaseOrder_create po_details db with
        | inr po =>
            (PurchaseOrder_save po db,
             JsonResponse (message "purchase order created successfully") 201)
        | inl e => (db, JsonResponse (error_str e) 400)
        end
  end.

(** The status edge on which a PUT recomputes the two metrics:
    [prev_status != 'completed' and po.status == 'completed']. *)
Definition status_edge (prev_status status : string) : Prop :=
  prev_status ≠ "completed" ∧ status = "completed".

(** The dictionary built by the GET branch of [purchase_order_data]. *)
Definition po_json_of (po : PurchaseOrder.t) : po_json_dict.t :=
  po_json_dict.mk (PurchaseOrder.po_number po) (PurchaseOrder.vendor po)
    (strftime (PurchaseOrder.order_date po)) (strftime (PurchaseOrder.delivery_date po))
    (PurchaseOrder.items po) (PurchaseOrder.quantity po) (PurchaseOrder.status po)
    (PurchaseOrder.quality_rating po) (strftime (PurchaseOrder.issue_date po))
    (strftime <$> PurchaseOrder.acknowledgement_date po).

(** [purchase_order_data]. In the PUT branch [po.save()] is not guarded: when
    the database refuses the row, the exception leaves the view and nothing
    has been written. *)
Definition purchase_order_data (req : purchase_order_data_request) (po_id : string)
    (now : datetime) (db : DB) : DB * outcome :=
  match PurchaseOrder_objects db !! po_id with
  | None => (db, JsonResponse (error "invalid purchase order id") 404)
  | Some po =>
      match req with
      | purchase_order_data_GET => (db, JsonResponse (po_json (po_json_of po)) 200)
      | purchase_order_data_PUT po_details =>
          let prev_status := PurchaseOrder.status po in
          let po :=
            PurchaseOrder.mk
              (default (PurchaseOrder.po_number po) (po_details.po_number po_details))
              (PurchaseOrder.vendor po)
              (default (PurchaseOrder.order_date po) (po_details.order_date po_details))
              (default (PurchaseOrder.delivery_date po) (po_details.delivery_date po_details))
              (default (PurchaseOrder.items po) (po_details.items po_details))
              (default (PurchaseOrder.quantity po) (po_details.quantity po_details))
              (default (PurchaseOrder.status po) (po_details.status po_details))
              (default None (po_details.quality_rating po_details))
              (default (PurchaseOrder.issue_date po) (po_details.issue_date po_details))
              (default None (po_details.acknowledgement_date po_details)) in
          match PurchaseOrder_rejected po with
          | Some e => (db, Raise e)
          | None =>
              let db := PurchaseOrder_save po db in
              match Vendor_objects db !! PurchaseOrder.vendor po with
              | None => (db, Raise DoesNotExist)
              | Some vendor =>
                  let '(vendor, db) :=
                    if decide (status_edge prev_status (PurchaseOrder.status po)) then
                      let '(vendor, db) := quality_rating_calculation vendor db in
                      fulfillment_rate_calculation vendor db
                    else (vendor, db) in
                  let db := create_historical_record now vendor db in
                  (db, JsonResponse (message "purchase order updated") 200)
              end
          end
      | purchase_order_data_DELETE =>
          match Vendor_objects db !! PurchaseOrder.vendor po with
          | None => (db, Raise DoesNotExist)
          | Some vendor =>
              let db := PurchaseOrder_delete po db in
              let '(vendor, db) := calculate_average_response_time vendor db in
              let '(vendor, db) := fulfillment_rate_calculation vendor db in
              let '(vendor, db) := quality_rating_calculation vendor db in
              let db := create_historical_record now vendor db in
              (db, JsonResponse (message "purchase order deleted") 204)
          end
      end
  end.

(** [now] is the acknowledgement date the view stores, [now'] the later
    reading of the clock that dates the historical record. The row saved is
    the stored row with a new value in a nullable column, which the database
    accepts. *)
Definition acknowledge_purchase_order (po_id : string) (now now' : datetime) (db : DB)
  : DB * outcome :=
  match PurchaseOrder_objects db !! po_id with
  | None => (db, JsonResponse (error "purchase order not found") 404)
  | Some purchase_order =>
      if decide (PurchaseOrder.acknowledgement_date purchase_order = None) then
        let purchase_order :=
          PurchaseOrder.set_acknowledgement_date (Some now) purchase_order in
        let db := PurchaseOrder_save purchase_order db in
        match Vendor_objects db !! PurchaseOrder.vendor purchase_order with
        | None => (db, Raise DoesNotExist)
        | Some vendor =>
            let '(vendor, db) := calculate_average_response_time vendor db in
            let db := create_historical_record now' vendor db in
            (db, JsonResponse (message "purchase order acknowledged") 200)
        end
      else
        (db, JsonResponse (message "purchase order already acknowledged") 200)
  end.

(** ** The integrity constraints of the schema

    The key of a row is its primary-key column, and every foreign key
    points to an existing vendor. *)

Definition db_ok (db : DB) : Prop :=
  map_Forall (λ k v, Vendor.vendor_code v = k) (Vendor_objects db)
  ∧ map_Forall (λ k po, PurchaseOrder.po_number po = k
                        ∧ is_Some (Vendor_objects db !! PurchaseOrder.vendor po))
               (PurchaseOrder_objects db)
  ∧ Forall (λ h, is_Some (Vendor_objects db !! HistoricalPerformance.vendor h))
           (HistoricalPerformance_objects db).

#[global] Instance db_ok_dec db : Decision (db_ok db).
Proof. unfold db_ok. apply _. Defined.

(** The historical records of one vendor. *)
Definition records_of (code : string) (db : DB) : list HistoricalPerformance.t :=
  filter (λ h, HistoricalPerformance.vendor h = code) (HistoricalPerformance_objects db).

(** ** The purchase-order operations that write, as a transition system *)

(** The instance after the assignments of the PUT branch. *)
Definition updated (po : PurchaseOrder.t) (d : po_details.t) : PurchaseOrder.t :=
  PurchaseOrder.mk
    (default (PurchaseOrder.po_number po) (po_details.po_number d))
    (PurchaseOrder.vendor po)
    (default (PurchaseOrder.order_date po) (po_details.order_date d))
    (default (PurchaseOrder.delivery_date po) (po_details.delivery_date d))
    (default (PurchaseOrder.items po) (po_details.items d))
    (default (PurchaseOrder.quantity po) (po_details.quantity d))
    (default (PurchaseOrder.status po) (po_details.status d))
    (default None (po_details.quality_rating d))
    (default (PurchaseOrder.issue_date po) (po_details.issue_date d))
    (default None (po_details.acknowledgement_date d)).

Inductive operation :=
| op_update (po_id : string) (po_details : po_details.t) (now : datetime)
| op_acknowledge (po_id : string) (now now' : datetime)
| op_delete (po_id : string) (now : datetime).

Definition op_target (op : operation) : string :=
  match op with
  | op_update po_id _ _ | op_acknowledge po_id _ _ | op_delete po_id _ => po_id
  end.

Definition step (db : DB) (op : operation) : DB :=
  match op with
  | op_update po_id po_details now =>
      (purchase_order_data (purchase_order_data_PUT po_details) po_id now db).1
  | op_acknowledge po_id now now' => (acknowledge_purchase_order po_id now now' db).1
  | op_delete po_id now => (purchase_order_data purchase_order_data_DELETE po_id now db).1
  end.

Definition run (ops : list operation) (db : DB) : DB := foldl step db ops.

(** The vendor that owns the order an operation addresses, if the order exists. *)
Definition owner (db : DB) (op : operation) : option string :=
  PurchaseOrder.vendor <$> PurchaseOrder_objects db !! op_target op.


(** Whether an operation finds its order and changes it: a PUT does when
    the database accepts the updated row, an acknowledgement when the order
    has no acknowledgement date yet, a DELETE always. *)
Definition writes (db : DB) (op : operation) : Prop :=
  match PurchaseOrder_objects db !! op_target op with
  | None => False
  | Some po =>
      match op with
      | op_update _ po_details _ => PurchaseOrder_rejected (updated po po_details) = None
      | op_acknowledge _ _ _ => PurchaseOrder.acknowledgement_date po = None
      | op_delete _ _ => True
      end
  end.

#[global] Instance writes_dec db op : Decision (writes db op).
Proof. unfold writes. destruct (_ !! _); [destruct op|]; apply _. Defined.


(** ** Names for what the proofs speak about *)

(** The vendor instance and the database after the conditional recomputation. *)
Definition recomputed_on_edge (po : PurchaseOrder.t) (d : po_details.t)
    (vendor : Vendor.t) (db : DB) : Vendor.t * DB :=
  if decide (status_edge (PurchaseOrder.status po) (PurchaseOrder.status (updated po d))) then
    fulfillment_rate_calculation (quality_rating_calculation vendor db).1
      (quality_rating_calculation vendor db).2
  else (vendor, db).

(** [sub] occurs in [s]. *)
Definition occurs_in (sub s : string) : Prop := ∃ pre post, s = pre +:+ sub +:+ post.

(** ** The fixtures of tests.py *)

Definition vendor_test : Vendor.t :=
  Vendor.mk "TEST001" "Test Vendor 1" "Contact details 1" "Address 1"
    (95 # 100) (45 # 10) (25 # 10) (98 # 100).

Definition po_test : PurchaseOrder.t :=
  PurchaseOrder.mk "PO001" "TEST001" 1000000 1000000 (JDict [("dummy item", JStr "desc")]) 1
    "pending" (Some (23 # 10)%Q) 1000000 None.

Definition db_test : DB := mkDB {[ "TEST001" := vendor_test ]} {[ "PO001" := po_test ]} [].





(** A vendor with three orders: one completed, rated 4 and acknowledged after
    seven seconds; one completed with no rating; one pending, rated 1 and
    acknowledged after three seconds. *)
Definition db_three_orders : DB :=
  mkDB {[ "TEST001" := vendor_test ]}
       (<["PO001" := PurchaseOrder.mk "PO001" "TEST001" 1000000 1000000 JNull 1
                       "completed" (Some (4 # 1)%Q) 1000000 (Some 8000000%Z)]>
          (<["PO002" := PurchaseOrder.mk "PO002" "TEST001" 1000000 1000000 JNull 1
                          "completed" None 1000000 None]>
             {["PO003" := PurchaseOrder.mk "PO003" "TEST001" 1000000 1000000 JNull 1
                            "pending" (Some (1 # 1)%Q) 1000000 (Some 4000000%Z)]}))
       [].

(** [{'status': 'completed'}] *)
Definition body_status_completed : po_details.t :=
  po_details.mk None None None None None None (Some "completed") None None None.


(** [{'name': 'Updated Vendor Name'}] *)
Definition body_vendor_name_only : vendor_details.t :=
  vendor_details.mk (Some "Updated Vendor Name") None None None None None None None.


(** ** Further names and fixtures *)


(** The status of a response. *)
Definition status_of (o : outcome) : option Z :=
  match o with JsonResponse _ status => Some status | Raise _ => None end.

(** The three metric functions, as functions on the pair they return. *)
Definition response_time_step (r : Vendor.t * DB) : Vendor.t * DB :=
  calculate_average_response_time r.1 r.2.

Definition quality_step (r : Vendor.t * DB) : Vendor.t * DB :=
  quality_rating_calculation r.1 r.2.

Definition fulfillment_step (r : Vendor.t * DB) : Vendor.t * DB :=
  fulfillment_rate_calculation r.1 r.2.







(** [{'items': null}] *)
Definition body_items_null : po_details.t :=
  po_details.mk None None None None (Some JNull) None None None None None.

(** [{'quantity': 9223372036854775808}] *)
Definition body_quantity_2_63 : po_details.t :=
  po_details.mk None None None None None (Some 9223372036854775808%Z) None None None None.


(** * Proofs *)

(** ** The integrity constraints are kept by every write *)

Lemma Vendor_save_ok v db : db_ok db → db_ok (Vendor_save v db).
Proof.
  intros (Hv & Hpo & Hh). split; [|split]; simpl.
  - by apply map_Forall_insert_2.
  - eapply map_Forall_impl; [exact Hpo|]. intros k po [Hk Hfk]. split; [done|].
    apply lookup_insert_is_Some'. by right.
  - eapply Forall_impl; [exact Hh|]. intros h Hfk. apply lookup_insert_is_Some'. by right.
Qed.

Lemma PurchaseOrder_save_ok po db :
  db_ok db → is_Some (Vendor_objects db !! PurchaseOrder.vendor po) →
  db_ok (PurchaseOrder_save po db).
Proof.
  intros (Hv & Hpo & Hh) Hfk. split; [|split]; simpl; [done| |done].
  by apply map_Forall_insert_2.
Qed.

Lemma PurchaseOrder_delete_ok po db : db_ok db → db_ok (PurchaseOrder_delete po db).
Proof.
  intros (Hv & Hpo & Hh). split; [|split]; simpl; [done| |done].
  by apply map_Forall_delete.
Qed.

Lemma create_historical_record_ok now v db :
  db_ok db → is_Some (Vendor_objects db !! Vendor.vendor_code v) →
  db_ok (create_historical_record now v db).
Proof.
  intros (Hv & Hpo & Hh) Hfk. split; [|split]; simpl; [done|done|].
  apply Forall_app. split; [done|]. by apply Forall_singleton.
Qed.

Lemma Vendor_delete_ok v db : db_ok db → db_ok (Vendor_delete v db).
Proof.
  intros (Hv & Hpo & Hh). split; [|split]; simpl.
  - by apply map_Forall_delete.
  - intros k po [Hk Hne]%map_lookup_filter_Some. simpl in Hne.
    destruct (Hpo k po Hk) as [? ?]. split; [done|]. by rewrite lookup_delete_ne.
  - apply Forall_forall. intros h [Hne Hin]%list_elem_of_filter.
    rewrite lookup_delete_ne; [|done]. by eapply Forall_forall in Hh.
Qed.

Lemma Vendor_save_lookup_code v db :
  is_Some (Vendor_objects (Vendor_save v db) !! Vendor.vendor_code v).
Proof. simpl. rewrite lookup_insert_eq. eauto. Qed.

Lemma purchase_order_data_ok req po_id now db :
  db_ok db → db_ok (purchase_order_data req po_id now db).1.
Proof.
  intros Hok. unfold purchase_order_data.
  destruct (PurchaseOrder_objects db !! po_id) as [po|] eqn:Hpo; [|done].
  pose proof Hok as (Hv & Hp & Hh). destruct (Hp _ _ Hpo) as [Hnum [v Hfk]].
  destruct req as [|d|]; simpl; [done| |].
  - destruct (PurchaseOrder_rejected _); [done|]. rewrite Hfk.
    set (po' := PurchaseOrder.mk _ _ _ _ _ _ _ _ _ _).
    assert (db_ok (PurchaseOrder_save po' db)) as Hok'.
    { apply PurchaseOrder_save_ok; [done|]. simpl. eauto. }
    assert (Vendor.vendor_code v = PurchaseOrder.vendor po) as Hcode by exact (Hv _ _ Hfk).
    case_decide; simpl.
    + apply create_historical_record_ok.
      * apply Vendor_save_ok. by apply Vendor_save_ok.
      * apply Vendor_save_lookup_code.
    + apply create_historical_record_ok; [done|]. simpl. rewrite Hcode. eauto.
  - rewrite Hfk. simpl. apply create_historical_record_ok.
    + do 3 apply Vendor_save_ok. by apply PurchaseOrder_delete_ok.
    + apply Vendor_save_lookup_code.
Qed.

Lemma acknowledge_purchase_order_ok po_id now now' db :
  db_ok db → db_ok (acknowledge_purchase_order po_id now now' db).1.
Proof.
  intros Hok. unfold acknowledge_purchase_order.
  destruct (PurchaseOrder_objects db !! po_id) as [po|] eqn:Hpo; [|done].
  pose proof Hok as (Hv & Hp & Hh). destruct (Hp _ _ Hpo) as [Hnum [v Hfk]].
  case_decide; [|done]. simpl. rewrite Hfk. simpl.
  apply create_historical_record_ok.
  - apply Vendor_save_ok, PurchaseOrder_save_ok; [done|]. simpl. eauto.
  - apply Vendor_save_lookup_code.
Qed.

Lemma vendors_ok req db : db_ok db → db_ok (vendors req db).1.
Proof.
  intros Hok. destruct req as [|d]; simpl; [done|].
  case_decide; [done|]. destruct (Vendor_create d db); [|done].
  by apply Vendor_save_ok.
Qed.

Lemma vendor_data_ok req vendor_id db : db_ok db → db_ok (vendor_data req vendor_id db).1.
Proof.
  intros Hok. unfold vendor_data. destruct (Vendor_objects db !! vendor_id); [|done].
  destruct req; simpl; [done| |].
  - by apply Vendor_save_ok.
  - by apply Vendor_delete_ok.
Qed.

Lemma PurchaseOrder_create_vendor d db po :
  PurchaseOrder_create d db = inr po → is_Some (Vendor_objects db !! PurchaseOrder.vendor po).
Proof.
  unfold PurchaseOrder_create. intros H.
  repeat match type of H with
         | match ?x with _ => _ end = _ => destruct x eqn:?; try discriminate
         end.
  injection H as <-. simpl. eauto.
Qed.

Lemma purchase_orders_ok req db : db_ok db → db_ok (purchase_orders req db).1.
Proof.
  intros Hok. destruct req as [[[|c s]|]|d]; simpl; try done.
  - by destruct (Vendor_objects db !! String c s).
  - case_decide; [done|]. destruct (PurchaseOrder_create d db) as [e|po] eqn:Hc; [done|].
    simpl. apply PurchaseOrder_save_ok; [done|]. by eapply PurchaseOrder_create_vendor.
Qed.

Lemma step_ok db op : db_ok db → db_ok (step db op).
Proof.
  destruct op; simpl; auto using purchase_order_data_ok, acknowledge_purchase_order_ok.
Qed.

Lemma run_ok ops db : db_ok db → db_ok (run ops db).
Proof.
  revert db. induction ops as [|op ops IH]; intros db Hok; [done|].
  simpl. apply IH. by apply step_ok.
Qed.

(** ** Query sets and averages *)

Section query_sets.
Context (P : string * PurchaseOrder.t → Prop) `{!∀ x, Decision (P x)}.
Context (m : gmap string PurchaseOrder.t).

Lemma elem_of_query k po :
  (k, po) ∈ map_to_list (filter P m) ↔ m !! k = Some po ∧ P (k, po).
Proof. by rewrite elem_of_map_to_list, map_lookup_filter_Some. Qed.

Lemma query_empty : (∀ k po, m !! k = Some po → ¬ P (k, po)) → filter P m = ∅.
Proof.
  intros Hno. apply map_empty. intros k. apply map_lookup_filter_None. right.
  intros po Hk. by apply Hno.
Qed.

Lemma query_size_0 : size (filter P m) = 0 ↔ ∀ k po, m !! k = Some po → ¬ P (k, po).
Proof.
  rewrite map_size_empty_iff. split.
  - intros Hemp k po Hk HP.
    assert (filter P m !! k = Some po) as Hin by by apply map_lookup_filter_Some.
    rewrite Hemp in Hin. by rewrite lookup_empty in Hin.
  - apply query_empty.
Qed.
End query_sets.

Lemma length_rows qs : length (rows qs) = size qs.
Proof. unfold rows. by rewrite length_fmap, length_map_to_list. Qed.


Lemma omap_fmap {A B C} (f : A → B) (g : B → option C) (l : list A) :
  omap g (f <$> l) = omap (λ x, g (f x)) l.
Proof. induction l as [|x l IH]; [done|]. csimpl. by rewrite IH. Qed.

Lemma Qnat_nonzero n : n ≠ 0%nat → ¬ (Qnat n == 0)%Q.
Proof.
  intros Hn Heq. unfold Qnat, Qeq in Heq. simpl in Heq. lia.
Qed.

(** A quotient by the number of summands is the exact mean. *)
Lemma mean_exact (total : Q) (n : nat) :
  n ≠ 0%nat → (total / Qnat n * Qnat n == total)%Q.
Proof.
  intros Hn. rewrite Qmult_comm. apply Qmult_div_r. by apply Qnat_nonzero.
Qed.

Lemma Avg_None column : Avg column = None ↔ omap id column = [].
Proof. unfold Avg. by destruct (omap id column). Qed.

Lemma Avg_Some column a :
  Avg column = Some a →
  omap id column ≠ []
  ∧ a = (Qsum (omap id column) / Qnat (length (omap id column)))%Q.
Proof. unfold Avg. destruct (omap id column); [done|]. by intros [= <-]. Qed.

(** ** The three metric functions (C5, C6, C7) *)

(** C5. [calculate_average_response_time] averages, over exactly the
    vendor's orders that have an acknowledgement date (each once), the
    seconds between issue and acknowledgement: the stored value times the
    number of those orders is their total, with no rounding; it is 0 when
    there is none; the vendor row is then written with that value, every
    other column and table being left as it was. *)
Theorem C5_calculate_average_response_time (vendor : Vendor.t) (db : DB) :
  let code := Vendor.vendor_code vendor in
  let acknowledged := map_to_list (filter_vendor_acknowledged code db) in
  let vendor' := (calculate_average_response_time vendor db).1 in
  let db' := (calculate_average_response_time vendor db).2 in
  NoDup acknowledged
  ∧ (∀ k po, (k, po) ∈ acknowledged ↔
       PurchaseOrder_objects db !! k = Some po ∧ PurchaseOrder.vendor po = code
       ∧ PurchaseOrder.acknowledgement_date po ≠ None)
  ∧ Forall (λ kp, ∃ ack, PurchaseOrder.acknowledgement_date kp.2 = Some ack
                  ∧ response_seconds kp.2
                    = ((ack - PurchaseOrder.issue_date kp.2) # 1000000)%Q) acknowledged
  ∧ (acknowledged ≠ [] →
       (Vendor.average_response_time vendor' * Qnat (length acknowledged)
        == Qsum ((λ kp, response_seconds kp.2) <$> acknowledged))%Q)
  ∧ (acknowledged = [] → Vendor.average_response_time vendor' = 0%Q)
  ∧ vendor' = Vendor.set_average_response_time (Vendor.average_response_time vendor') vendor
  ∧ Vendor_objects db' = <[code := vendor']> (Vendor_objects db)
  ∧ PurchaseOrder_objects db' = PurchaseOrder_objects db
  ∧ HistoricalPerformance_objects db' = HistoricalPerformance_objects db.
Proof.
  intros code acknowledged vendor' db'.
  assert (∀ k po, (k, po) ∈ acknowledged ↔
       PurchaseOrder_objects db !! k = Some po ∧ PurchaseOrder.vendor po = code
       ∧ PurchaseOrder.acknowledgement_date po ≠ None) as Hin.
  { intros k po. unfold acknowledged, filter_vendor_acknowledged.
    by rewrite elem_of_query. }
  split; [apply NoDup_map_to_list|]. split; [exact Hin|]. split.
  { apply Forall_forall. intros [k po] Hkp. apply Hin in Hkp as (_ & _ & Hack).
    simpl. unfold response_seconds.
    destruct (PurchaseOrder.acknowledgement_date po) as [ack|]; [|done]. by exists ack. }
  assert (rows (filter_vendor_acknowledged code db) = acknowledged.*2) as Hrows by done.
  subst vendor' db'. unfold calculate_average_response_time. fold code. simpl.
  rewrite Hrows, length_fmap, <-list_fmap_compose.
  repeat split.
  - intros Hne. case_decide as Hlen.
    + apply mean_exact. lia.
    + destruct acknowledged; [done|simpl in Hlen; lia].
  - intros ->. done.
Qed.

(** C6. [quality_rating_calculation] averages [quality_rating] over exactly
    the vendor's orders whose status is 'completed', the null ratings being
    left out of both the total and the count; the stored value is 0 when no
    completed order has a rating, in particular when the vendor has no
    completed order; the vendor row is then written with that value. *)
Theorem C6_quality_rating_calculation (vendor : Vendor.t) (db : DB) :
  let code := Vendor.vendor_code vendor in
  let completed := map_to_list (filter_vendor_completed code db) in
  let ratings := omap (λ kp, PurchaseOrder.quality_rating kp.2) completed in
  let vendor' := (quality_rating_calculation vendor db).1 in
  let db' := (quality_rating_calculation vendor db).2 in
  NoDup completed
  ∧ (∀ k po, (k, po) ∈ completed ↔
       PurchaseOrder_objects db !! k = Some po ∧ PurchaseOrder.vendor po = code
       ∧ PurchaseOrder.status po = "completed")
  ∧ (∀ r, r ∈ ratings ↔
       ∃ k po, (k, po) ∈ completed ∧ PurchaseOrder.quality_rating po = Some r)
  ∧ (ratings ≠ [] →
       (Vendor.quality_rating_avg vendor' * Qnat (length ratings) == Qsum ratings)%Q)
  ∧ (ratings = [] → Vendor.quality_rating_avg vendor' = 0%Q)
  ∧ (completed = [] → Vendor.quality_rating_avg vendor' = 0%Q)
  ∧ vendor' = Vendor.set_quality_rating_avg (Vendor.quality_rating_avg vendor') vendor
  ∧ Vendor_objects db' = <[code := vendor']> (Vendor_objects db)
  ∧ PurchaseOrder_objects db' = PurchaseOrder_objects db
  ∧ HistoricalPerformance_objects db' = HistoricalPerformance_objects db.
Proof.
  intros code completed ratings vendor' db'.
  split; [apply NoDup_map_to_list|]. split.
  { intros k po. unfold completed, filter_vendor_completed. by rewrite elem_of_query. }
  split.
  { intros r. unfold ratings. rewrite list_elem_of_omap. split.
    - intros ([k po] & Hin & Hr). by exists k, po.
    - intros (k & po & Hin & Hr). by exists (k, po). }
  assert (omap id (PurchaseOrder.quality_rating <$> rows (filter_vendor_completed code db))
          = ratings) as Hcol.
  { unfold rows. by rewrite !omap_fmap. }
  assert (Vendor.quality_rating_avg vendor'
          = match ratings with
            | [] => 0%Q
            | _ => (Qsum ratings / Qnat (length ratings))%Q
            end) as Hval.
  { subst vendor'. unfold quality_rating_calculation. fold code. simpl.
    unfold Avg. rewrite Hcol. by destruct ratings. }
  repeat split.
  - intros Hne. rewrite Hval. destruct ratings as [|r rs] eqn:Hr; [done|].
    apply mean_exact. done.
  - intros Hnil. by rewrite Hval, Hnil.
  - intros Hnil. rewrite Hval. unfold ratings. by rewrite Hnil.
Qed.

(** C7. [fulfillment_rate_calculation] stores the number of the vendor's
    orders whose status is 'completed' divided by the number of all the
    vendor's orders, whatever their status, and 0 when the vendor has no
    order; the vendor row is then written with that value. *)
Theorem C7_fulfillment_rate_calculation (vendor : Vendor.t) (db : DB) :
  let code := Vendor.vendor_code vendor in
  let completed := filter_vendor_completed code db in
  let total := filter_vendor code db in
  let vendor' := (fulfillment_rate_calculation vendor db).1 in
  let db' := (fulfillment_rate_calculation vendor db).2 in
  (∀ k po, completed !! k = Some po ↔
     PurchaseOrder_objects db !! k = Some po ∧ PurchaseOrder.vendor po = code
     ∧ PurchaseOrder.status po = "completed")
  ∧ (∀ k po, total !! k = Some po ↔
       PurchaseOrder_objects db !! k = Some po ∧ PurchaseOrder.vendor po = code)
  ∧ (size total ≠ 0%nat →
       Vendor.fulfillment_rate vendor' = (Qnat (size completed) / Qnat (size total))%Q)
  ∧ ((∀ k po, PurchaseOrder_objects db !! k = Some po → PurchaseOrder.vendor po ≠ code) →
       Vendor.fulfillment_rate vendor' = 0%Q)
  ∧ vendor' = Vendor.set_fulfillment_rate (Vendor.fulfillment_rate vendor') vendor
  ∧ Vendor_objects db' = <[code := vendor']> (Vendor_objects db)
  ∧ PurchaseOrder_objects db' = PurchaseOrder_objects db
  ∧ HistoricalPerformance_objects db' = HistoricalPerformance_objects db.
Proof.
  intros code completed total vendor' db'.
  split. { intros k po. apply map_lookup_filter_Some. }
  split. { intros k po. apply map_lookup_filter_Some. }
  subst vendor' db'. unfold fulfillment_rate_calculation.
  fold code. fold completed. fold total. simpl.
  repeat split.
  - intros Hne. by rewrite decide_True.
  - intros Hnone. rewrite decide_False; [done|]. intros Hne. apply Hne.
    unfold total, filter_vendor. apply (proj2 (query_size_0 _ _)).
    intros k po Hk. simpl. exact (Hnone k po Hk).
Qed.




(** ** PUT on a purchase order (C1, C2, C10) *)



Lemma owning_vendor db k po :
  db_ok db → PurchaseOrder_objects db !! k = Some po →
  PurchaseOrder.po_number po = k
  ∧ ∃ vendor, Vendor_objects db !! PurchaseOrder.vendor po = Some vendor
              ∧ Vendor.vendor_code vendor = PurchaseOrder.vendor po.
Proof.
  intros (Hv & Hp & _) Hk. destruct (Hp _ _ Hk) as [Hnum [v Hfk]].
  split; [done|]. exists v. split; [done|]. exact (Hv _ _ Hfk).
Qed.

(** A PUT whose updated row the database refuses: the exception leaves the
    view and the database is as it was. *)
Lemma purchase_order_data_PUT_rejected db po_id d now po e :
  PurchaseOrder_objects db !! po_id = Some po →
  PurchaseOrder_rejected (updated po d) = Some e →
  purchase_order_data (purchase_order_data_PUT d) po_id now db = (db, Raise e).
Proof.
  intros Hpo Hrej. unfold purchase_order_data. rewrite Hpo.
  fold (updated po d). by rewrite Hrej.
Qed.

Lemma purchase_order_data_PUT_eq db po_id d now po vendor :
  PurchaseOrder_objects db !! po_id = Some po →
  PurchaseOrder_rejected (updated po d) = None →
  Vendor_objects db !! PurchaseOrder.vendor po = Some vendor →
  purchase_order_data (purchase_order_data_PUT d) po_id now db
  = (create_historical_record now
       (recomputed_on_edge po d vendor (PurchaseOrder_save (updated po d) db)).1
       (recomputed_on_edge po d vendor (PurchaseOrder_save (updated po d) db)).2,
     JsonResponse (message "purchase order updated") 200).
Proof.
  intros Hpo Hacc Hv. unfold purchase_order_data. rewrite Hpo.
  fold (updated po d). rewrite Hacc.
  cbn [PurchaseOrder_save set_PurchaseOrder_objects Vendor_objects].
  change (PurchaseOrder.vendor (updated po d)) with (PurchaseOrder.vendor po).
  rewrite Hv. unfold recomputed_on_edge.
  case_decide; [|done].
  by destruct (quality_rating_calculation _ _) as [v1 db1],
              (fulfillment_rate_calculation _ _) as [v2 db2].
Qed.

(** The vendor row and the tables after the conditional recomputation. *)
Lemma recomputed_on_edge_spec po d vendor db :
  let r := recomputed_on_edge po d vendor db in
  Vendor.vendor_code r.1 = Vendor.vendor_code vendor
  ∧ PurchaseOrder_objects r.2 = PurchaseOrder_objects db
  ∧ HistoricalPerformance_objects r.2 = HistoricalPerformance_objects db
  ∧ Vendor.on_time_delivery_rate r.1 = Vendor.on_time_delivery_rate vendor
  ∧ Vendor.average_response_time r.1 = Vendor.average_response_time vendor
  ∧ (status_edge (PurchaseOrder.status po) (PurchaseOrder.status (updated po d)) →
       Vendor_objects r.2
       = <[Vendor.vendor_code vendor := r.1]>
           (<[Vendor.vendor_code vendor := (quality_rating_calculation vendor db).1]>
              (Vendor_objects db))
       ∧ Vendor.quality_rating_avg r.1
         = Vendor.quality_rating_avg (quality_rating_calculation vendor db).1
       ∧ Vendor.fulfillment_rate r.1
         = Vendor.fulfillment_rate (fulfillment_rate_calculation vendor db).1)
  ∧ (¬ status_edge (PurchaseOrder.status po) (PurchaseOrder.status (updated po d)) →
       r = (vendor, db)).
Proof.
  unfold recomputed_on_edge. case_decide as Hedge; simpl; repeat split; done.
Qed.

Lemma records_of_create now vendor db code :
  records_of code (create_historical_record now vendor db)
  = records_of code db
    ++ (if decide (Vendor.vendor_code vendor = code) then [snapshot now vendor] else []).
Proof.
  unfold records_of, create_historical_record. simpl. by rewrite filter_app.
Qed.





(** ** DELETE on a purchase order (C8) *)

Section no_orders.
Context (vendor : Vendor.t) (db : DB).
Hypothesis none : ∀ k po,
  PurchaseOrder_objects db !! k = Some po → PurchaseOrder.vendor po ≠ Vendor.vendor_code vendor.



End no_orders.

Lemma purchase_order_data_DELETE_eq db po_id now po vendor :
  PurchaseOrder_objects db !! po_id = Some po →
  Vendor_objects db !! PurchaseOrder.vendor po = Some vendor →
  let r1 := calculate_average_response_time vendor (PurchaseOrder_delete po db) in
  let r2 := fulfillment_rate_calculation r1.1 r1.2 in
  let r3 := quality_rating_calculation r2.1 r2.2 in
  purchase_order_data purchase_order_data_DELETE po_id now db
  = (create_historical_record now r3.1 r3.2,
     JsonResponse (message "purchase order deleted") 204).
Proof.
  intros Hpo Hv. unfold purchase_order_data. by rewrite Hpo, Hv.
Qed.


(** ** Acknowledgement (C4) *)

Lemma acknowledge_purchase_order_first_eq db po_id now now' po vendor :
  PurchaseOrder_objects db !! po_id = Some po →
  PurchaseOrder.acknowledgement_date po = None →
  Vendor_objects db !! PurchaseOrder.vendor po = Some vendor →
  let r :=
    calculate_average_response_time vendor
      (PurchaseOrder_save (PurchaseOrder.set_acknowledgement_date (Some now) po) db) in
  acknowledge_purchase_order po_id now now' db
  = (create_historical_record now' r.1 r.2,
     JsonResponse (message "purchase order acknowledged") 200).
Proof.
  intros Hpo Hack Hv. unfold acknowledge_purchase_order. rewrite Hpo.
  rewrite decide_True by done. cbn [PurchaseOrder_save set_PurchaseOrder_objects Vendor_objects].
  change (PurchaseOrder.vendor (PurchaseOrder.set_acknowledgement_date (Some now) po))
    with (PurchaseOrder.vendor po).
  by rewrite Hv.
Qed.

Lemma acknowledge_purchase_order_again_eq db po_id now now' po :
  PurchaseOrder_objects db !! po_id = Some po →
  PurchaseOrder.acknowledgement_date po ≠ None →
  acknowledge_purchase_order po_id now now' db
  = (db, JsonResponse (message "purchase order already acknowledged") 200).
Proof.
  intros Hpo Hack. unfold acknowledge_purchase_order. rewrite Hpo.
  by rewrite decide_False.
Qed.


(** ** Historical records along a run of operations (C3) *)




(** ** Error answers (C9) *)


Lemma string_app_assoc (s1 s2 s3 : string) : (s1 +:+ s2) +:+ s3 = s1 +:+ s2 +:+ s3.
Proof.
  induction s1 as [|a s1 IH]; [done|].
  change (String a ((s1 +:+ s2) +:+ s3) = String a (s1 +:+ s2 +:+ s3)). by rewrite IH.
Qed.

Lemma string_app_empty_r (s : string) : s +:+ "" = s.
Proof.
  induction s as [|a s IH]; [done|]. change (String a (s +:+ "") = String a s). by rewrite IH.
Qed.

Lemma occurs_in_app_r sub s pre : occurs_in sub s → occurs_in sub (pre +:+ s).
Proof.
  intros (p & q & ->). exists (pre +:+ p), q. by rewrite string_app_assoc.
Qed.

Lemma join_occurs sep (l : list string) field : field ∈ l → occurs_in field (join sep l).
Proof.
  unfold join. induction l as [|x l IH]; intros Hin; [by apply elem_of_nil in Hin|].
  apply elem_of_cons in Hin. destruct l as [|y l].
  - destruct Hin as [->|Hin]; [|by apply elem_of_nil in Hin].
    exists "", "". simpl. by rewrite string_app_empty_r.
  - change (String.concat sep (x :: y :: l))
      with (x +:+ sep +:+ String.concat sep (y :: l)).
    destruct Hin as [->|Hin].
    + by exists "", (sep +:+ String.concat sep (y :: l)).
    + rewrite <-string_app_assoc. by apply occurs_in_app_r, IH.
Qed.

Lemma elem_of_missing_from keys required_fields field :
  field ∈ missing_from keys required_fields ↔ field ∈ required_fields ∧ field ∉ keys.
Proof. unfold missing_from. rewrite list_elem_of_filter. tauto. Qed.

(** Outside the URL an unknown vendor is not a 404: named in the body of a
    POST of a purchase order it is caught with every other failure of the
    creation (400), and in the filter of the list view the lookup is not
    caught and [DoesNotExist] escapes the view. *)
Lemma purchase_orders_POST_unknown_vendor db po_number code order_date delivery_date
    items quantity status quality_rating issue_date acknowledgement_date :
  Vendor_objects db !! code = None →
  purchase_orders
    (purchase_orders_POST
       (po_details.mk (Some po_number) (Some code) (Some order_date) (Some delivery_date)
          (Some items) (Some quantity) (Some status) quality_rating (Some issue_date)
          acknowledgement_date)) db
  = (db, JsonResponse (error_str DoesNotExist) 400).
Proof.
  intros Hnone. unfold purchase_orders.
  assert (missing_from
            (po_details.keys
               (po_details.mk (Some po_number) (Some code) (Some order_date)
                  (Some delivery_date) (Some items) (Some quantity) (Some status)
                  quality_rating (Some issue_date) acknowledgement_date))
            purchase_orders_required_fields = []) as ->
    by (by destruct quality_rating, acknowledgement_date; vm_compute).
  rewrite decide_False by (by intros ?).
  unfold PurchaseOrder_create. simpl. by rewrite Hnone.
Qed.


(** C9 (as the code has it). A POST to the vendors or to the purchase
    orders whose body lacks required keys answers 400 with an error message
    that is the view's prefix followed by the missing names joined by ', ' (so
    every missing name occurs in it) and leaves the database as it is; a
    request to one of the four views addressed by an identifier in the URL
    answers 404, the database untouched, when no row has that key; a POST of
    a purchase order whose body has the required keys and names a vendor that
    does not exist answers 400, the database untouched; a DELETE of an
    existing vendor or purchase order answers 204 and the row is gone. *)
Theorem C9_error_and_delete_statuses (db : DB) :
  (∀ vd, missing_from (vendor_details.keys vd) vendors_required_fields ≠ [] →
     ∃ msg,
       vendors (vendors_POST vd) db = (db, JsonResponse (error msg) 400)
       ∧ msg = "missing fields: "
               +:+ join ", " (missing_from (vendor_details.keys vd) vendors_required_fields)
       ∧ ∀ field, field ∈ vendors_required_fields → field ∉ vendor_details.keys vd →
                  occurs_in field msg)
  ∧ (∀ pd, missing_from (po_details.keys pd) purchase_orders_required_fields ≠ [] →
       ∃ msg,
         purchase_orders (purchase_orders_POST pd) db = (db, JsonResponse (error msg) 400)
         ∧ msg = "Missing fields: "
                 +:+ join ", " (missing_from (po_details.keys pd)
                                  purchase_orders_required_fields)
         ∧ ∀ field, field ∈ purchase_orders_required_fields → field ∉ po_details.keys pd →
                    occurs_in field msg)
  ∧ (∀ req vendor_id, Vendor_objects db !! vendor_id = None →
       vendor_data req vendor_id db = (db, JsonResponse (error "invalid vendor id") 404))
  ∧ (∀ vendor_id, Vendor_objects db !! vendor_id = None →
       vendor_performance vendor_id db = (db, JsonResponse (error "invalid vendor id") 404))
  ∧ (∀ req po_id now, PurchaseOrder_objects db !! po_id = None →
       purchase_order_data req po_id now db
       = (db, JsonResponse (error "invalid purchase order id") 404))
  ∧ (∀ po_id now now', PurchaseOrder_objects db !! po_id = None →
       acknowledge_purchase_order po_id now now' db
       = (db, JsonResponse (error "purchase order not found") 404))
  ∧ (∀ po_number code order_date delivery_date items quantity status quality_rating
       issue_date acknowledgement_date,
       Vendor_objects db !! code = None →
       purchase_orders
         (purchase_orders_POST
            (po_details.mk (Some po_number) (Some code) (Some order_date)
               (Some delivery_date) (Some items) (Some quantity) (Some status)
               quality_rating (Some issue_date) acknowledgement_date)) db
       = (db, JsonResponse (error_str DoesNotExist) 400))
  ∧ (∀ vendor_id, is_Some (Vendor_objects db !! vendor_id) →
       (vendor_data vendor_data_DELETE vendor_id db).2
       = JsonResponse (message "vendor deleted") 204
       ∧ (db_ok db →
          Vendor_objects (vendor_data vendor_data_DELETE vendor_id db).1 !! vendor_id = None))
  ∧ (∀ po_id now, db_ok db → is_Some (PurchaseOrder_objects db !! po_id) →
       (purchase_order_data purchase_order_data_DELETE po_id now db).2
       = JsonResponse (message "purchase order deleted") 204
       ∧ PurchaseOrder_objects (purchase_order_data purchase_order_data_DELETE po_id now db).1
         !! po_id = None).
Proof.
  split.
  { intros vd Hvd. eexists. split; [|split; [reflexivity|]].
    - simpl. by rewrite decide_True.
    - intros field Hreq Habsent. apply occurs_in_app_r, join_occurs.
      by apply elem_of_missing_from. }
  split.
  { intros pd Hpd. eexists. split; [|split; [reflexivity|]].
    - simpl. by rewrite decide_True.
    - intros field Hreq Habsent. apply occurs_in_app_r, join_occurs.
      by apply elem_of_missing_from. }
  split; [by intros req vendor_id Hnone; unfold vendor_data; rewrite Hnone|].
  split; [by intros vendor_id Hnone; unfold vendor_performance; rewrite Hnone|].
  split; [by intros req po_id now Hnone; unfold purchase_order_data; rewrite Hnone|].
  split; [by intros po_id now now' Hnone; unfold acknowledge_purchase_order; rewrite Hnone|].
  split; [intros; by apply purchase_orders_POST_unknown_vendor|].
  split.
  - intros vendor_id [v Hv]. unfold vendor_data. rewrite Hv. split; [done|].
    intros (Hkeys & _). pose proof (Hkeys _ _ Hv) as Hcode. simpl in Hcode.
    cbn [fst Vendor_delete Vendor_objects]. by rewrite Hcode, lookup_delete_eq.
  - intros po_id now Hok [po Hpo].
    destruct (owning_vendor _ _ _ Hok Hpo) as [Hnum (vendor & Hfk & _)].
    rewrite (purchase_order_data_DELETE_eq _ _ _ _ _ Hpo Hfk). cbn. rewrite Hnum.
    by rewrite lookup_delete_eq.
Qed.

(** ** The theorems at work on the fixtures of tests.py *)

(** The three metric functions on the vendor with three orders: five seconds
    on average over the two acknowledged orders, a quality rating of 4 from
    the one rated completed order, two orders out of three completed. *)
Example metrics_on_three_orders :
  (Vendor.average_response_time
     (calculate_average_response_time vendor_test db_three_orders).1 == 5)%Q
  ∧ (Vendor.quality_rating_avg
       (quality_rating_calculation vendor_test db_three_orders).1 == 4)%Q
  ∧ (Vendor.fulfillment_rate
       (fulfillment_rate_calculation vendor_test db_three_orders).1 == 2 # 3)%Q.
Proof. vm_compute. by repeat split. Qed.

(** The rows the database refuses: a PUT with a null [items] or a [quantity]
    of 2^63 raises and writes nothing; the same values in a POST are caught
    and answered 400. *)
Example refused_rows :
  purchase_order_data (purchase_order_data_PUT body_items_null) "PO001" 5 db_test
  = (db_test, Raise IntegrityError)
  ∧ purchase_order_data (purchase_order_data_PUT body_quantity_2_63) "PO001" 5 db_test
    = (db_test, Raise OverflowError)
  ∧ purchase_orders
      (purchase_orders_POST
         (po_details.mk (Some "PO123") (Some "TEST001") (Some 2000000%Z) (Some 3000000%Z)
            (Some JNull) (Some 10%Z) (Some "pending") None (Some 2000000%Z) None)) db_test
    = (db_test, JsonResponse (error_str IntegrityError) 400)
  ∧ purchase_orders
      (purchase_orders_POST
         (po_details.mk (Some "PO123") (Some "TEST001") (Some 2000000%Z) (Some 3000000%Z)
            (Some (JDict [])) (Some 9223372036854775808%Z) (Some "pending") None
            (Some 2000000%Z) None)) db_test
    = (db_test, JsonResponse (error_str OverflowError) 400).
Proof. vm_compute. by repeat split. Qed.

(** [test_update_po]: the PUT of [{'status': 'completed'}] answers 200, the
    order is completed, its quantity is still 1, one historical record exists. *)
Example test_update_po :
  let r :=
    purchase_order_data (purchase_order_data_PUT body_status_completed) "PO001" 5 db_test in
  r.2 = JsonResponse (message "purchase order updated") 200
  ∧ PurchaseOrder.status <$> PurchaseOrder_objects r.1 !! "PO001" = Some "completed"
  ∧ PurchaseOrder.quantity <$> PurchaseOrder_objects r.1 !! "PO001" = Some 1%Z
  ∧ length (HistoricalPerformance_objects r.1) = 1.
Proof. vm_compute. by repeat split. Qed.

(** [test_acknowledge_po] *)
Example test_acknowledge_po :
  let r := acknowledge_purchase_order "PO001" 8000000 8000001 db_test in
  r.2 = JsonResponse (message "purchase order acknowledged") 200
  ∧ PurchaseOrder.acknowledgement_date <$> PurchaseOrder_objects r.1 !! "PO001"
    = Some (Some 8000000%Z)
  ∧ HistoricalPerformance.vendor <$> HistoricalPerformance_objects r.1 = ["TEST001"]
  ∧ Vendor.average_response_time <$> Vendor_objects r.1 !! "TEST001"
    = Some (7000000 # 1000000)%Q.
Proof. vm_compute. by repeat split. Qed.

(** [test_delete_po] *)
Example test_delete_po :
  let r := purchase_order_data purchase_order_data_DELETE "PO001" 5 db_test in
  r.2 = JsonResponse (message "purchase order deleted") 204
  ∧ PurchaseOrder_objects r.1 !! "PO001" = None
  ∧ length (HistoricalPerformance_objects r.1) = 1.
Proof. vm_compute. by repeat split. Qed.









(** C9 on the fixture: a vendor body with the name only, an unknown vendor,
    the DELETE of the order. *)
Lemma C9_witness :
  db_ok db_test
  ∧ missing_from (vendor_details.keys body_vendor_name_only) vendors_required_fields ≠ []
  ∧ Vendor_objects db_test !! "TEST009" = None
  ∧ is_Some (PurchaseOrder_objects db_test !! "PO001")
  ∧ vendors (vendors_POST body_vendor_name_only) db_test
    = (db_test,
       JsonResponse
         (error ("missing fields: contact_details, address, vendor_code, "
                 +:+ "on_time_delivery_rate, quality_rating_avg, "
                 +:+ "average_response_time, fulfillment_rate")) 400)
  ∧ vendor_data vendor_data_GET "TEST009" db_test
    = (db_test, JsonResponse (error "invalid vendor id") 404)
  ∧ (purchase_order_data purchase_order_data_DELETE "PO001" 5 db_test).2
    = JsonResponse (message "purchase order deleted") 204.
Proof.
  assert (db_ok db_test) as Hok by (apply (bool_decide_unpack _); vm_compute; exact I).
  assert (missing_from (vendor_details.keys body_vendor_name_only) vendors_required_fields
          ≠ []) as Hvd by (vm_compute; discriminate).
  assert (Vendor_objects db_test !! "TEST009" = None) as Hnov by (vm_compute; reflexivity).
  assert (is_Some (PurchaseOrder_objects db_test !! "PO001")) as Hpo
    by (exists po_test; vm_compute; reflexivity).
  do 4 (split; [assumption|]).
  destruct (C9_error_and_delete_statuses db_test)
    as (Hv400 & _ & Hv404 & _ & _ & _ & _ & _ & Hpo204).
  destruct (Hv400 body_vendor_name_only Hvd) as (msg & Hpost & -> & _).
  split; [exact Hpost|].
  split; [exact (Hv404 vendor_data_GET "TEST009" Hnov)|].
  exact (proj1 (Hpo204 "PO001" 5%Z Hok Hpo)).
Defined.

(** C9 as the specification states it fails: a purchase order posted with
    all its keys for a vendor that does not exist is answered 400, and the
    list filtered by that vendor is not answered at all, [DoesNotExist]
    leaving the view; neither is a 404. *)
Lemma C9_counterexample :
  Vendor_objects db_test !! "TEST009" = None
  ∧ purchase_orders
      (purchase_orders_POST
         (po_details.mk (Some "PO123") (Some "TEST009") (Some 2000000%Z) (Some 3000000%Z)
            (Some (JDict [("item", JStr "desc")])) (Some 10%Z) (Some "pending") None
            (Some 2000000%Z) None)) db_test
    = (db_test, JsonResponse (error_str DoesNotExist) 400)
  ∧ purchase_orders (purchase_orders_GET (Some "TEST009")) db_test
    = (db_test, Raise DoesNotExist).
Proof. vm_compute. by repeat split. Qed.



(** * Further properties of the views *)

(** ** Integrity, exceptions and failed requests *)

(** X1. Every view keeps the integrity constraints of the schema: after any
    request to any of the six views the key of each row is still its
    primary-key column and every purchase order and historical record still
    points to an existing vendor. *)
Theorem X1_views_keep_integrity (db : DB) :
  db_ok db →
  (∀ req, db_ok (vendors req db).1)
  ∧ (∀ req vendor_id, db_ok (vendor_data req vendor_id db).1)
  ∧ (∀ vendor_id, db_ok (vendor_performance vendor_id db).1)
  ∧ (∀ req, db_ok (purchase_orders req db).1)
  ∧ (∀ req po_id now, db_ok (purchase_order_data req po_id now db).1)
  ∧ (∀ po_id now now', db_ok (acknowledge_purchase_order po_id now now' db).1).
Proof.
  intros Hok. split; [intros; by apply vendors_ok|].
  split; [intros; by apply vendor_data_ok|].
  split; [intros vendor_id; unfold vendor_performance; by destruct (_ !! _)|].
  split; [intros; by apply purchase_orders_ok|].
  split; [intros; by apply purchase_order_data_ok|].
  intros. by apply acknowledge_purchase_order_ok.
Qed.


(** X3. A request that is answered 400 or 404 has written nothing: the
    database after it is the database before it. *)
Theorem X3_refused_requests_write_nothing (db : DB) (status : Z) :
  status = 400%Z ∨ status = 404%Z →
  (∀ req, status_of (vendors req db).2 = Some status → (vendors req db).1 = db)
  ∧ (∀ req vendor_id, status_of (vendor_data req vendor_id db).2 = Some status →
       (vendor_data req vendor_id db).1 = db)
  ∧ (∀ vendor_id, status_of (vendor_performance vendor_id db).2 = Some status →
       (vendor_performance vendor_id db).1 = db)
  ∧ (∀ req, status_of (purchase_orders req db).2 = Some status →
       (purchase_orders req db).1 = db)
  ∧ (∀ req po_id now, status_of (purchase_order_data req po_id now db).2 = Some status →
       (purchase_order_data req po_id now db).1 = db)
  ∧ (∀ po_id now now',
       status_of (acknowledge_purchase_order po_id now now' db).2 = Some status →
       (acknowledge_purchase_order po_id now now' db).1 = db).
Proof.
  intros Hstatus.
  assert (status ≠ 200%Z ∧ status ≠ 201%Z ∧ status ≠ 204%Z) as (H200 & H201 & H204)
    by (destruct Hstatus; subst; done).
  split.
  { intros [|d]; simpl; [done|]. case_decide; [done|].
    destruct (Vendor_create d db); [|done]. simpl. by intros [= ?]. }
  split.
  { intros req vendor_id. unfold vendor_data.
    destruct (Vendor_objects db !! vendor_id); [|done].
    destruct req; simpl; by intros [= ?]. }
  split.
  { intros vendor_id. unfold vendor_performance. by destruct (_ !! _). }
  split.
  { intros [[[|c s]|]|d]; simpl; try done.
    - by destruct (Vendor_objects db !! String c s).
    - case_decide; [done|]. destruct (PurchaseOrder_create d db); [done|]. simpl.
      by intros [= ?]. }
  split.
  { intros req po_id now. unfold purchase_order_data.
    destruct (PurchaseOrder_objects db !! po_id) as [po|]; [|done].
    destruct req as [|d|]; [done| |].
    - destruct (PurchaseOrder_rejected _); [done|].
      cbn [PurchaseOrder_save set_PurchaseOrder_objects Vendor_objects].
      destruct (Vendor_objects db !! _); [|done].
      case_decide;
        [destruct (quality_rating_calculation _ _) as [v1 db1],
                  (fulfillment_rate_calculation _ _) as [v2 db2]|];
        simpl; by intros [= ?].
    - destruct (Vendor_objects db !! _); [|done].
      destruct (calculate_average_response_time _ _) as [v1 db1],
               (fulfillment_rate_calculation _ _) as [v2 db2],
               (quality_rating_calculation _ _) as [v3 db3].
      simpl. by intros [= ?]. }
  intros po_id now now'. unfold acknowledge_purchase_order.
  destruct (PurchaseOrder_objects db !! po_id) as [po|]; [|done].
  case_decide; [|done].
  cbn [PurchaseOrder_save set_PurchaseOrder_objects Vendor_objects].
  destruct (Vendor_objects db !! _); [|done].
  destruct (calculate_average_response_time _ _) as [v1 db1]. simpl. by intros [= ?].
Qed.

(** ** Vendors: creation, update, removal *)







(** X8. DELETE on an existing vendor answers 204 and cascades: the vendor's
    row is gone, the purchase orders left are exactly those of the other
    vendors, no historical record of the vendor is left, and the rows and
    records of the other vendors are as before. *)
Theorem X8_vendor_delete_cascades (db : DB) (vendor_id : string) (vendor : Vendor.t) :
  db_ok db →
  Vendor_objects db !! vendor_id = Some vendor →
  let r := vendor_data vendor_data_DELETE vendor_id db in
  r.2 = JsonResponse (message "vendor deleted") 204
  ∧ Vendor_objects r.1 = delete vendor_id (Vendor_objects db)
  ∧ (∀ k po, PurchaseOrder_objects r.1 !! k = Some po ↔
       PurchaseOrder_objects db !! k = Some po ∧ PurchaseOrder.vendor po ≠ vendor_id)
  ∧ filter_vendor vendor_id r.1 = ∅
  ∧ records_of vendor_id r.1 = []
  ∧ (∀ other, other ≠ vendor_id →
       records_of other r.1 = records_of other db
       ∧ filter_vendor other r.1 = filter_vendor other db).
Proof.
  intros (Hkeys & _) Hv r.
  pose proof (Hkeys _ _ Hv) as Hk. simpl in Hk.
  subst r. unfold vendor_data. rewrite Hv.
  unfold Vendor_delete. rewrite Hk. cbn [fst snd Vendor_objects].
  split; [done|]. split; [done|]. split.
  { intros k po. cbn [PurchaseOrder_objects]. by rewrite map_lookup_filter_Some. }
  split.
  { unfold filter_vendor. cbn [PurchaseOrder_objects]. apply query_empty.
    intros k po [_ Hne]%map_lookup_filter_Some. done. }
  split.
  { unfold records_of. cbn [HistoricalPerformance_objects].
    rewrite list_filter_filter. induction (HistoricalPerformance_objects db) as [|h l IH];
      [done|].
    rewrite filter_cons, decide_False; [done|]. by intros [? ?]. }
  intros other Hother. split.
  - unfold records_of. cbn [HistoricalPerformance_objects].
    apply list_filter_filter_l. intros h ->. done.
  - unfold filter_vendor. cbn [PurchaseOrder_objects].
    rewrite map_filter_filter. apply map_filter_ext. intros k po _. simpl.
    split; [tauto|]. intros Hvo. split; [done|]. by rewrite Hvo.
Qed.

(** ** Purchase orders: creation, listing, renumbering *)






Lemma elem_of_rows qs po : po ∈ rows qs ↔ ∃ k, qs !! k = Some po.
Proof.
  unfold rows. rewrite list_elem_of_fmap. split.
  - intros ([k po'] & -> & Hin). exists k. by apply elem_of_map_to_list.
  - intros (k & Hk). exists (k, po). split; [done|]. by apply elem_of_map_to_list.
Qed.

(** X11. The list of purchase orders filtered by the code of an existing
    vendor holds the orders of that vendor and no other, as many as the
    vendor has; without a [vendor_id], or with an empty one, the list holds
    every order. Listing writes nothing. *)
Theorem X11_list_filter_returns_the_vendors_orders (db : DB) (vendor_id : string) :
  db_ok db →
  is_Some (Vendor_objects db !! vendor_id) →
  vendor_id ≠ "" →
  (∃ l, purchase_orders (purchase_orders_GET (Some vendor_id)) db
        = (db, JsonResponse (purchase_orders_data l) 200)
        ∧ (∀ po, po ∈ l ↔ ∃ k, PurchaseOrder_objects db !! k = Some po
                               ∧ PurchaseOrder.vendor po = vendor_id)
        ∧ length l = size (filter_vendor vendor_id db))
  ∧ (∃ l, purchase_orders (purchase_orders_GET None) db
          = (db, JsonResponse (purchase_orders_data l) 200)
          ∧ purchase_orders (purchase_orders_GET (Some "")) db
            = (db, JsonResponse (purchase_orders_data l) 200)
          ∧ (∀ po, po ∈ l ↔ ∃ k, PurchaseOrder_objects db !! k = Some po)
          ∧ length l = size (PurchaseOrder_objects db)).
Proof.
  intros (Hkeys & _) [vendor Hv] Hne. split.
  - exists (rows (filter_vendor vendor_id db)). split.
    { destruct vendor_id as [|c s]; [done|]. simpl. rewrite Hv.
      by rewrite (Hkeys _ _ Hv). }
    split; [|apply length_rows].
    intros po. rewrite elem_of_rows. unfold filter_vendor.
    by setoid_rewrite map_lookup_filter_Some.
  - exists (rows (PurchaseOrder_objects db)). split; [done|]. split; [done|].
    split; [apply elem_of_rows|apply length_rows].
Qed.


(** ** The metric functions together *)

Lemma Qnat_le (a b : nat) : (a ≤ b)%nat → (Qnat a <= Qnat b)%Q.
Proof. intros Hab. unfold Qnat, Qle. simpl. lia. Qed.

Lemma Qnat_pos (n : nat) : n ≠ 0 → (0 < Qnat n)%Q.
Proof. intros Hn. unfold Qnat, Qlt. simpl. lia. Qed.

Lemma completed_le_total code db :
  (size (filter_vendor_completed code db) ≤ size (filter_vendor code db))%nat.
Proof.
  apply map_subseteq_size. unfold filter_vendor_completed, filter_vendor.
  apply map_filter_subseteq_ext. intros k po _ [Hv _]. exact Hv.
Qed.

(** X14. The fulfillment rate that [fulfillment_rate_calculation] stores is
    a ratio between 0 and 1, and it is 1 exactly when the vendor has an order
    and all its orders are completed. *)
Theorem X14_fulfillment_rate_between_0_and_1 (vendor : Vendor.t) (db : DB) :
  let code := Vendor.vendor_code vendor in
  let rate := Vendor.fulfillment_rate (fulfillment_rate_calculation vendor db).1 in
  (0 <= rate)%Q ∧ (rate <= 1)%Q
  ∧ ((rate == 1)%Q ↔
       size (filter_vendor code db) ≠ 0
       ∧ size (filter_vendor_completed code db) = size (filter_vendor code db)).
Proof.
  intros code rate. subst rate. unfold fulfillment_rate_calculation. fold code. simpl.
  pose proof (completed_le_total code db) as Hle.
  case_decide as Htotal.
  - pose proof (Qnat_pos _ Htotal) as Hpos. split; [|split].
    + apply Qle_shift_div_l; [done|]. rewrite Qmult_0_l. by apply (Qnat_le 0), Nat.le_0_l.
    + apply Qle_shift_div_r; [done|]. rewrite Qmult_1_l. by apply Qnat_le.
    + split.
      * intros Hone. split; [done|].
        assert (Qnat (size (filter_vendor_completed code db))
                == Qnat (size (filter_vendor code db)))%Q as Heq.
        { rewrite <-(Qmult_1_l (Qnat (size (filter_vendor code db)))), <-Hone.
          symmetry. rewrite Qmult_comm. apply Qmult_div_r. by apply Qnat_nonzero. }
        unfold Qnat, Qeq in Heq. simpl in Heq. lia.
      * intros [_ ->]. unfold Qdiv. apply Qmult_inv_r. by apply Qnat_nonzero.
  - split; [done|]. split; [done|]. split; [done|]. by intros [? _].
Qed.

Lemma Vendor_save_twice v1 v2 db :
  Vendor.vendor_code v1 = Vendor.vendor_code v2 →
  Vendor_save v2 (Vendor_save v1 db) = Vendor_save v2 db.
Proof.
  intros Hc. unfold Vendor_save, set_Vendor_objects. simpl. rewrite Hc.
  by rewrite insert_insert_eq.
Qed.

(** X15. Each metric function is idempotent: run a second time on the
    instance and database it returned, it returns them unchanged. *)
Theorem X15_metric_functions_idempotent (r : Vendor.t * DB) :
  response_time_step (response_time_step r) = response_time_step r
  ∧ quality_step (quality_step r) = quality_step r
  ∧ fulfillment_step (fulfillment_step r) = fulfillment_step r.
Proof.
  destruct r as [v db].
  unfold response_time_step, quality_step, fulfillment_step,
    calculate_average_response_time, quality_rating_calculation,
    fulfillment_rate_calculation.
  cbn [fst snd]. repeat split; (f_equal; by rewrite Vendor_save_twice).
Qed.

(** X16. The three metric functions commute: each reads the purchase orders
    only and writes its own column, so whichever order they run in, the
    instance and the database that come out are the same. *)
Theorem X16_metric_functions_commute (r : Vendor.t * DB) :
  quality_step (fulfillment_step r) = fulfillment_step (quality_step r)
  ∧ response_time_step (fulfillment_step r) = fulfillment_step (response_time_step r)
  ∧ response_time_step (quality_step r) = quality_step (response_time_step r)
  ∧ quality_step (fulfillment_step (response_time_step r))
    = response_time_step (fulfillment_step (quality_step r)).
Proof.
  destruct r as [v db].
  unfold response_time_step, quality_step, fulfillment_step,
    calculate_average_response_time, quality_rating_calculation,
    fulfillment_rate_calculation.
  cbn [fst snd]. repeat split; (f_equal; by rewrite !Vendor_save_twice).
Qed.

(** ** One operation: the vendor it touches and the record it writes *)

Lemma step_vendor_rows db op po :
  db_ok db →
  PurchaseOrder_objects db !! op_target op = Some po →
  (∀ other, other ≠ PurchaseOrder.vendor po →
     Vendor_objects (step db op) !! other = Vendor_objects db !! other)
  ∧ ∃ now vendor',
      Vendor_objects (step db op) !! PurchaseOrder.vendor po = Some vendor'
      ∧ Vendor.vendor_code vendor' = PurchaseOrder.vendor po
      ∧ (writes db op →
           HistoricalPerformance_objects (step db op)
           = HistoricalPerformance_objects db ++ [snapshot now vendor'])
      ∧ (¬ writes db op → step db op = db).
Proof.
  intros Hok Hpo.
  destruct (owning_vendor _ _ _ Hok Hpo) as [Hnum (vendor & Hv & Hcode)].
  unfold writes. rewrite Hpo.
  destruct op as [po_id d now|po_id now now'|po_id now]; simpl in Hpo |- *.
  - destruct (PurchaseOrder_rejected (updated po d)) as [e|] eqn:Hacc.
    { rewrite (purchase_order_data_PUT_rejected _ _ _ _ _ _ Hpo Hacc). cbn [fst].
      split; [done|]. exists now, vendor. by repeat split. }
    rewrite (purchase_order_data_PUT_eq _ _ _ _ _ _ Hpo Hacc Hv). cbn [fst].
    set (db1 := PurchaseOrder_save (updated po d) db).
    destruct (recomputed_on_edge_spec po d vendor db1)
      as (Hc & _ & Hh & _ & _ & Hedge & Hnot).
    set (r := recomputed_on_edge po d vendor db1) in *.
    cbn [create_historical_record set_HistoricalPerformance_objects Vendor_objects
         HistoricalPerformance_objects].
    destruct (decide (status_edge (PurchaseOrder.status po)
                        (PurchaseOrder.status (updated po d)))) as [He|He].
    + destruct (Hedge He) as (Hvs & _). rewrite Hvs, Hcode. split.
      * intros other Hother. by rewrite !lookup_insert_ne.
      * exists now, r.1. rewrite lookup_insert_eq, Hc, Hh. by repeat split.
    + rewrite (Hnot He). cbn [fst snd]. split; [done|].
      exists now, vendor. by repeat split.
  - destruct (decide (PurchaseOrder.acknowledgement_date po = None)) as [Hack|Hack].
    + rewrite (acknowledge_purchase_order_first_eq _ _ _ _ _ _ Hpo Hack Hv). cbn [fst].
      set (r := calculate_average_response_time vendor _).
      assert (Vendor_objects r.2 = <[PurchaseOrder.vendor po := r.1]> (Vendor_objects db)
              ∧ HistoricalPerformance_objects r.2 = HistoricalPerformance_objects db
              ∧ Vendor.vendor_code r.1 = PurchaseOrder.vendor po) as (Hvs & Hhs & Hc)
        by (unfold r; cbn; by rewrite Hcode).
      cbn [create_historical_record set_HistoricalPerformance_objects Vendor_objects
           HistoricalPerformance_objects].
      rewrite Hvs, Hhs. split.
      * intros other Hother. by rewrite lookup_insert_ne.
      * exists now', r.1. rewrite lookup_insert_eq.
        repeat split; try done; intros Hno; by destruct Hno.
    + rewrite (acknowledge_purchase_order_again_eq _ _ _ _ _ Hpo Hack). cbn [fst].
      split; [done|]. exists now', vendor. by repeat split.
  - rewrite (purchase_order_data_DELETE_eq _ _ _ _ _ Hpo Hv). cbn [fst].
    set (r3 := quality_rating_calculation _ _).
    assert (Vendor_objects r3.2
            = <[PurchaseOrder.vendor po := r3.1]>
                (<[PurchaseOrder.vendor po :=
                     (fulfillment_rate_calculation
                        (calculate_average_response_time vendor
                           (PurchaseOrder_delete po db)).1
                        (calculate_average_response_time vendor
                           (PurchaseOrder_delete po db)).2).1]>
                   (<[PurchaseOrder.vendor po :=
                        (calculate_average_response_time vendor
                           (PurchaseOrder_delete po db)).1]> (Vendor_objects db)))
            ∧ HistoricalPerformance_objects r3.2 = HistoricalPerformance_objects db
            ∧ Vendor.vendor_code r3.1 = PurchaseOrder.vendor po) as (Hvs & Hhs & Hc)
      by (unfold r3; cbn; by rewrite Hcode).
    cbn [create_historical_record set_HistoricalPerformance_objects Vendor_objects
         HistoricalPerformance_objects].
    rewrite Hvs, Hhs. split.
    + intros other Hother. by rewrite !lookup_insert_ne.
    + exists now, r3.1. rewrite lookup_insert_eq. by repeat split.
Qed.


(** X18. An operation on a purchase order touches one vendor only: the row
    and the historical records of every vendor other than the owner of the
    order are as before, and an operation that finds no order changes
    nothing at all. *)
Theorem X18_operation_leaves_other_vendors (db : DB) (op : operation) :
  db_ok db →
  (∀ code other, owner db op = Some code → other ≠ code →
     Vendor_objects (step db op) !! other = Vendor_objects db !! other
     ∧ records_of other (step db op) = records_of other db)
  ∧ (owner db op = None → step db op = db).
Proof.
  intros Hok. unfold owner.
  destruct (PurchaseOrder_objects db !! op_target op) as [po|] eqn:Hpo.
  - split; [|done]. intros code other [= <-] Hother.
    destruct (step_vendor_rows db op po Hok Hpo)
      as (Hrows & now & vendor' & _ & Hcode & Hh & Hnot).
    split; [by apply Hrows|].
    destruct (decide (writes db op)) as [Hw|Hw].
    + unfold records_of. rewrite (Hh Hw), filter_app, filter_cons, filter_nil.
      rewrite decide_False; [by rewrite app_nil_r|]. simpl. congruence.
    + by rewrite (Hnot Hw).
  - split; [done|]. intros _. destruct op; simpl in Hpo |- *.
    + unfold purchase_order_data. by rewrite Hpo.
    + unfold acknowledge_purchase_order. by rewrite Hpo.
    + unfold purchase_order_data. by rewrite Hpo.
Qed.


(** ** What is deleted is gone *)

(** X19. Once a purchase order is deleted, every later request on its
    number, a second DELETE and an acknowledgement included, is answered 404
    and writes nothing. *)
Theorem X19_deleted_order_is_gone (db : DB) (po_id : string) (now : datetime)
    (po : PurchaseOrder.t) :
  db_ok db →
  PurchaseOrder_objects db !! po_id = Some po →
  let db' := (purchase_order_data purchase_order_data_DELETE po_id now db).1 in
  (∀ req later,
     purchase_order_data req po_id later db'
     = (db', JsonResponse (error "invalid purchase order id") 404))
  ∧ (∀ later later',
       acknowledge_purchase_order po_id later later' db'
       = (db', JsonResponse (error "purchase order not found") 404)).
Proof.
  intros Hok Hpo db'.
  destruct (owning_vendor _ _ _ Hok Hpo) as [Hnum (vendor & Hv & _)].
  assert (PurchaseOrder_objects db' !! po_id = None) as Hgone.
  { subst db'. rewrite (purchase_order_data_DELETE_eq _ _ _ _ _ Hpo Hv). cbn.
    by rewrite Hnum, lookup_delete_eq. }
  split.
  - intros req later. unfold purchase_order_data. by rewrite Hgone.
  - intros later later'. unfold acknowledge_purchase_order. by rewrite Hgone.
Qed.

(** X20. Once a vendor is deleted, requests on its code are answered 404,
    and so are requests on the number of any purchase order it had: the
    orders went with the vendor. *)
Theorem X20_deleted_vendor_is_gone_with_its_orders (db : DB) (vendor_id po_id : string)
    (vendor : Vendor.t) (po : PurchaseOrder.t) :
  db_ok db →
  Vendor_objects db !! vendor_id = Some vendor →
  PurchaseOrder_objects db !! po_id = Some po →
  PurchaseOrder.vendor po = vendor_id →
  let db' := (vendor_data vendor_data_DELETE vendor_id db).1 in
  (∀ req, vendor_data req vendor_id db' = (db', JsonResponse (error "invalid vendor id") 404))
  ∧ vendor_performance vendor_id db' = (db', JsonResponse (error "invalid vendor id") 404)
  ∧ (∀ req later,
       purchase_order_data req po_id later db'
       = (db', JsonResponse (error "invalid purchase order id") 404))
  ∧ (∀ later later',
       acknowledge_purchase_order po_id later later' db'
       = (db', JsonResponse (error "purchase order not found") 404)).
Proof.
  intros (Hkeys & _) Hv Hpo Hfk db'.
  pose proof (Hkeys _ _ Hv) as Hk. simpl in Hk.
  assert (Vendor_objects db' !! vendor_id = None
          ∧ PurchaseOrder_objects db' !! po_id = None) as [Hvgone Hpogone].
  { subst db'. unfold vendor_data. rewrite Hv. unfold Vendor_delete. rewrite Hk.
    cbn [fst Vendor_objects PurchaseOrder_objects]. split; [apply lookup_delete_eq|].
    apply map_lookup_filter_None. right. intros po' Hpo' Hne.
    rewrite Hpo in Hpo'. injection Hpo' as <-. by apply Hne. }
  split; [intros req; unfold vendor_data; by rewrite Hvgone|].
  split; [unfold vendor_performance; by rewrite Hvgone|].
  split.
  - intros req later. unfold purchase_order_data. by rewrite Hpogone.
  - intros later later'. unfold acknowledge_purchase_order. by rewrite Hpogone.
Qed.

(** ** The further properties at work on the fixtures *)

(** X1 on the fixture: the database left by the removal of the vendor. *)
Lemma X1_witness :
  db_ok db_test ∧ db_ok (vendor_data vendor_data_DELETE "TEST001" db_test).1.
Proof.
  assert (db_ok db_test) as Hok by (apply (bool_decide_unpack _); vm_compute; exact I).
  split; [exact Hok|].
  destruct (X1_views_keep_integrity db_test Hok) as (_ & Hvendor_data & _).
  exact (Hvendor_data vendor_data_DELETE "TEST001").
Defined.


(** X3 on the fixture: a GET on an unknown vendor. *)
Lemma X3_witness :
  (404 = 400 ∨ 404 = 404)%Z
  ∧ (vendor_data vendor_data_GET "TEST009" db_test).1 = db_test.
Proof.
  assert (404 = 400 ∨ 404 = 404)%Z as Hstatus by (right; reflexivity).
  split; [exact Hstatus|].
  destruct (X3_refused_requests_write_nothing db_test 404 Hstatus) as (_ & Hvendor_data & _).
  apply (Hvendor_data vendor_data_GET "TEST009"). vm_compute. reflexivity.
Defined.




(** X8 on the fixture: [test_delete_vendor] takes the vendor's order away. *)
Lemma X8_witness :
  db_ok db_test
  ∧ Vendor_objects db_test !! "TEST001" = Some vendor_test
  ∧ let r := vendor_data vendor_data_DELETE "TEST001" db_test in
    r.2 = JsonResponse (message "vendor deleted") 204
    ∧ filter_vendor "TEST001" r.1 = ∅.
Proof.
  assert (db_ok db_test) as Hok by (apply (bool_decide_unpack _); vm_compute; exact I).
  assert (Vendor_objects db_test !! "TEST001" = Some vendor_test) as Hv
    by (vm_compute; reflexivity).
  split; [exact Hok|]. split; [exact Hv|].
  destruct (X8_vendor_delete_cascades db_test "TEST001" vendor_test Hok Hv)
    as (Hout & _ & _ & Hnone & _).
  split; [exact Hout|exact Hnone].
Defined.


(** X11 on the fixture: the orders of the vendor of tests.py. *)
Lemma X11_witness :
  db_ok db_test
  ∧ is_Some (Vendor_objects db_test !! "TEST001")
  ∧ "TEST001" ≠ ""
  ∧ ∃ l, purchase_orders (purchase_orders_GET (Some "TEST001")) db_test
         = (db_test, JsonResponse (purchase_orders_data l) 200)
         ∧ length l = size (filter_vendor "TEST001" db_test).
Proof.
  assert (db_ok db_test) as Hok by (apply (bool_decide_unpack _); vm_compute; exact I).
  assert (is_Some (Vendor_objects db_test !! "TEST001")) as Hv
    by (exists vendor_test; vm_compute; reflexivity).
  assert ("TEST001" ≠ "") as Hne by discriminate.
  split; [exact Hok|]. split; [exact Hv|]. split; [exact Hne|].
  destruct (X11_list_filter_returns_the_vendors_orders db_test "TEST001" Hok Hv Hne)
    as ((l & Hlist & _ & Hlen) & _).
  exists l. split; [exact Hlist|exact Hlen].
Defined.




(** X18 on the fixture: a DELETE of an order that does not exist. *)
Lemma X18_witness :
  db_ok db_test ∧ step db_test (op_delete "PO009" 5) = db_test.
Proof.
  assert (db_ok db_test) as Hok by (apply (bool_decide_unpack _); vm_compute; exact I).
  split; [exact Hok|].
  destruct (X18_operation_leaves_other_vendors db_test (op_delete "PO009" 5) Hok)
    as (_ & Hnone).
  apply Hnone. vm_compute. reflexivity.
Defined.

(** X19 on the fixture: [test_delete_po], then a second DELETE. *)
Lemma X19_witness :
  db_ok db_test
  ∧ PurchaseOrder_objects db_test !! "PO001" = Some po_test
  ∧ let db' := (purchase_order_data purchase_order_data_DELETE "PO001" 5 db_test).1 in
    purchase_order_data purchase_order_data_DELETE "PO001" 6 db'
    = (db', JsonResponse (error "invalid purchase order id") 404).
Proof.
  assert (db_ok db_test) as Hok by (apply (bool_decide_unpack _); vm_compute; exact I).
  assert (PurchaseOrder_objects db_test !! "PO001" = Some po_test) as Hpo
    by (vm_compute; reflexivity).
  split; [exact Hok|]. split; [exact Hpo|].
  destruct (X19_deleted_order_is_gone db_test "PO001" 5 po_test Hok Hpo) as (Hagain & _).
  exact (Hagain purchase_order_data_DELETE 6%Z).
Defined.

(** X20 on the fixture: [test_delete_vendor], then a GET on the vendor's order. *)
Lemma X20_witness :
  db_ok db_test
  ∧ Vendor_objects db_test !! "TEST001" = Some vendor_test
  ∧ PurchaseOrder_objects db_test !! "PO001" = Some po_test
  ∧ PurchaseOrder.vendor po_test = "TEST001"
  ∧ let db' := (vendor_data vendor_data_DELETE "TEST001" db_test).1 in
    purchase_order_data purchase_order_data_GET "PO001" 5 db'
    = (db', JsonResponse (error "invalid purchase order id") 404).
Proof.
  assert (db_ok db_test) as Hok by (apply (bool_decide_unpack _); vm_compute; exact I).
  assert (Vendor_objects db_test !! "TEST001" = Some vendor_test) as Hv
    by (vm_compute; reflexivity).
  assert (PurchaseOrder_objects db_test !! "PO001" = Some po_test) as Hpo
    by (vm_compute; reflexivity).
  split; [exact Hok|]. split; [exact Hv|]. split; [exact Hpo|]. split; [reflexivity|].
  destruct (X20_deleted_vendor_is_gone_with_its_orders db_test "TEST001" "PO001" vendor_test
              po_test Hok Hv Hpo eq_refl) as (_ & _ & Horder & _).
  exact (Horder purchase_order_data_GET 5%Z).
Defined.
